(** * The funds-transfer workload of [example.py]

    A shallow embedding of the functions of the script, first of all
    [transfer_funds] and [run_transaction], together with the little of
    psycopg 3 and of the SQL store that they rely on, and the properties of
    the ledger and of the retry loop proved about them. *)

From Stdlib Require Import ZArith QArith Lqa Floats String List Lia.
From stdpp Require Import gmap list fin_maps.

Local Open Scope Z_scope.

(** ** Exceptions

    The Python exceptions that the two functions raise or tell apart.  The
    [except] clauses of [run_transaction] separate
    [psycopg.errors.SerializationFailure] from every other [psycopg.Error];
    [RuntimeError], [TypeError] and [ValueError] are built-in exceptions and
    are instances of neither. *)

Inductive exception : Type :=
  | SerializationFailure (msg : string)
      (* psycopg.errors.SerializationFailure, the store asks for a retry *)
  | Error (msg : string)
      (* an instance of psycopg.Error that is no SerializationFailure *)
  | RuntimeError (frm : N) (have need : Z)
      (* f"insufficient funds in {frm}: have {from_balance}, need {amount}" *)
  | TypeError (msg : string)
      (* subscripting or comparing None *)
  | ValueError (max_retries : Z)
      (* f"transaction did not succeed after {max_retries} retries" *)
  | psycopg_Rollback
      (* psycopg.Rollback, raised to leave a transaction block and have it
         rolled back; a subclass of Exception, not of psycopg.Error *)
  | Exception (msg : string).
      (* any other exception an operation may raise *)

(** [isinstance(e, SerializationFailure)] *)
Definition is_SerializationFailure (e : exception) : bool :=
  match e with
  | SerializationFailure _ => true
  | _ => false
  end.

(** [isinstance(e, psycopg.Error)]: [SerializationFailure] is a subclass. *)
Definition is_psycopg_Error (e : exception) : bool :=
  match e with
  | SerializationFailure _ | Error _ => true
  | _ => false
  end.

(** [isinstance(e, psycopg.Rollback)] *)
Definition is_Rollback (e : exception) : bool :=
  match e with
  | psycopg_Rollback => true
  | _ => false
  end.

(** What [conn.rollback()] raises when the connection is inside a
    [with conn.transaction()] block: a [psycopg.ProgrammingError], which is a
    [psycopg.Error]. *)
Definition rollback_forbidden : exception :=
  Error "Explicit rollback() forbidden within a Transaction context. (Either raise Rollback() or allow an exception to propagate out of the context.)".

(** How a call ends: it returns (always [None] here) or raises. *)
Inductive completion : Type :=
  | Returned
  | Raised (e : exception).

(** ** The accounts table

    [CREATE TABLE accounts (id UUID PRIMARY KEY, balance INT)]: at most one row
    per id, the id a 128-bit value, the balance an integer or NULL (the column
    carries no NOT NULL constraint).  A row is the binding of its id; the NULL
    balance is [None].  Balances are mathematical integers: the width of the
    store's INT is not part of the script. *)

Abbreviation accounts := (gmap N (option Z)).

(** [SELECT balance FROM accounts WHERE id = %s] followed by [cur.fetchone()]:
    the row when there is one, [None] otherwise. *)
Definition select_balance (id : N) (t : accounts) : option (option Z) :=
  t !! id.

(** [UPDATE accounts SET balance = balance - %s WHERE id = %s]: the rows that
    match are rewritten, there is at most one, and it is no error when there is
    none; NULL minus a number is NULL. *)
Definition update_balance_sub (amount : Z) (id : N) (t : accounts) : accounts :=
  alter (fmap (fun balance => balance - amount)) id t.

(** [UPDATE accounts SET balance = balance + %s WHERE id = %s] *)
Definition update_balance_add (amount : Z) (id : N) (t : accounts) : accounts :=
  alter (fmap (fun balance => balance + amount)) id t.

(** A NULL balance counts for nothing in a sum, as in SQL's [SUM]. *)
Definition balance_value (b : option Z) : Z := default 0 b.

(** The balance of the account [id], for the purpose of sums: nothing when
    there is no such row. *)
Definition balance (id : N) (t : accounts) : Z :=
  from_option balance_value 0 (t !! id).

(** The sum of all balances of the table. *)
Definition total (t : accounts) : Z :=
  map_fold (fun _ b acc => balance_value b + acc) 0 t.

(** Python's [range(start, stop)] on integers. *)
Definition range (start stop : Z) : list Z :=
  map (fun i => start + Z.of_nat i) (seq 0 (Z.to_nat (stop - start))).

(** ** The backoff delay *)

(** [(2**retry) * 0.1 * (u + 0.5)], the expression of [sleep_seconds], in
    binary64 as Python evaluates it: the integer [2**retry] is converted to a
    float, which raises OverflowError from [2**1024] on, the products are
    taken from left to right and each operation rounds to nearest.  [u] is
    the float that [random.random()] returned. *)
Definition sleep_seconds (retry : Z) (u : float) : option float :=
  if 1024 <=? retry then None
  else Some (Z.ldexp 1 retry * 0x1.999999999999ap-4 * (u + 0x1p-1))%float.

(** The largest float that [random.random()] returns: [1 - 2**-53]. *)
Definition random_max : float := 0x1.fffffffffffffp-1%float.

(** The exact value of a finite float, as a rational. *)
Definition float_value (f : float) : option Q :=
  match Prim2SF f with
  | S754_zero _ => Some 0%Q
  | S754_finite sign m e =>
      let magnitude :=
        if (0 <=? e)%Z then inject_Z (Z.pos m * 2 ^ e)
        else (Z.pos m # Pos.pow 2 (Z.to_pos (- e)))%Q in
      Some (if sign then (- magnitude)%Q else magnitude)
  | _ => None
  end.




Section Workload.

(** What the store holds beyond the rows this session works on (other
    sessions, their locks and timestamps): it is what makes one and the same
    operation conflict on one attempt and pass on the next. *)
Context {server : Type}.

(** ** Sessions and connections *)

(** The open transaction of a connection, as the statements of an operation
    see it: the rows with the writes made so far, and the store around them. *)
Record session : Type := Session {
  rows : accounts;
  env : server
}.

(** A connection outside of any transaction: the committed rows. *)
Record connection : Type := Connection {
  committed : accounts;
  store : server
}.

(** [cur.execute] of an UPDATE statement in the open transaction. *)
Definition execute (stmt : accounts -> accounts) (conn : session) : session :=
  {| rows := stmt (rows conn); env := env conn |}.

(** ** [transfer_funds] *)

Definition transfer_funds (conn : session) (frm to : N) (amount : Z)
  : completion * session :=
  (* Check the current balance. *)
  match select_balance frm (rows conn) with
  | None =>
      (* cur.fetchone() is None *)
      (Raised (TypeError "'NoneType' object is not subscriptable"), conn)
  | Some None =>
      (* from_balance is None *)
      (Raised (TypeError "'<' not supported between instances of 'NoneType' and 'int'"),
       conn)
  | Some (Some from_balance) =>
      if from_balance <? amount then
        (Raised (RuntimeError frm from_balance amount), conn)
      else
        (* Perform the transfer. *)
        let conn := execute (update_balance_sub amount frm) conn in
        let conn := execute (update_balance_add amount to) conn in
        (Returned, conn)
  end.

(** ** [run_transaction] *)

(** What [run_transaction] does that can be seen from outside, in order. *)
Inductive event : Type :=
  | Begin                     (* entering [with conn.transaction()] *)
  | Call (retry : Z)          (* [op(conn)] in iteration [retry] *)
  | Rollback                  (* [conn.rollback()] is called *)
  | Sleep (seconds : float)   (* [time.sleep(sleep_seconds)] *)
  | Commit                    (* the block is left and the transaction committed *)
  | Abort.                    (* the block is left and the transaction rolled back *)

Definition is_Call (ev : event) : bool :=
  match ev with
  | Call _ => true
  | _ => false
  end.

(** The number of times the operation was invoked. *)
Definition invocations (tr : list event) : nat :=
  length (List.filter is_Call tr).

(** [with conn.transaction():], of which the source says: leaving this block
    the transaction will commit or rollback (if leaving with an exception).
    Entering the block opens a transaction on the committed rows. *)
Definition transaction_enter (conn : connection) : session :=
  {| rows := committed conn; env := store conn |}.

(** [conn.rollback()] on a connection that is inside [num_transactions]
    blocks of [conn.transaction()].  Outside of any block it rolls the
    transaction back: the rows are again the committed ones [t0].  Inside a
    block psycopg refuses it and raises, before anything is done. *)
Definition rollback (num_transactions : nat) (t0 : accounts) (conn : session)
  : completion * session :=
  match num_transactions with
  | O => (Returned, {| rows := t0; env := env conn |})
  | S _ => (Raised rollback_forbidden, conn)
  end.

(** Leaving the block with the transaction committed: its rows are the
    committed ones. *)
Definition transaction_commit (conn : session) : connection :=
  {| committed := rows conn; store := env conn |}.

(** Leaving the block with the transaction rolled back. *)
Definition transaction_rollback (t0 : accounts) (conn : session) : connection :=
  {| committed := t0; store := env conn |}.

(** The value that [random.random()] returns in the backoff that follows the
    conflict of iteration [retry]. *)
Variable random_random : Z -> float.

(** What the COMMIT that is sent on leaving the block normally raises, if
    anything: the store may refuse a transaction at that point. *)
Variable commit_error : session -> option exception.

(** The operation handed to [run_transaction]: it is called with the
    connection and executes its statements in the transaction that is open
    on it, so what it reads and writes is the session. *)
Variable op : session -> completion * session.

Section Loop.

Variable max_retries : Z.

(** The rows committed when the block was entered. *)
Variable t0 : accounts.

(** The [for retry in ...] loop with the [raise ValueError] that follows
    it: how the body of the [with] block ends, in which session, after
    which events.  The loop runs inside the one block of [run_transaction]:
    [conn.rollback()] is called with the connection in a block. *)
Fixpoint for_retry (retries : list Z) (conn : session)
  : completion * session * list event :=
  match retries with
  | [] => (Raised (ValueError max_retries), conn, [])
  | retry :: retries =>
      match op conn with
      | (Returned, conn) =>
          (* return *)
          (Returned, conn, [Call retry])
      | (Raised e, conn) =>
          if is_SerializationFailure e then
            match rollback 1 t0 conn with
            | (Raised e', conn) =>
                (* raised in the except clause: no other clause takes it *)
                (Raised e', conn, [Call retry; Rollback])
            | (Returned, conn) =>
                match sleep_seconds retry (random_random retry) with
                | None =>
                    (Raised (Exception "int too large to convert to float"), conn,
                     [Call retry; Rollback])
                | Some seconds =>
                    let '(c, conn, tr) := for_retry retries conn in
                    (c, conn, Call retry :: Rollback :: Sleep seconds :: tr)
                end
            end
          else if is_psycopg_Error e then
            (* raise e *)
            (Raised e, conn, [Call retry])
          else
            (* no except clause matches *)
            (Raised e, conn, [Call retry])
      end
  end.

End Loop.

(** The result of a call of [run_transaction]. *)
Record run : Type := Run {
  outcome : completion;
  conn_after : connection;
  trace : list event
}.

(** [run_transaction]: the loop inside the block, and the way the block is
    left.  A [return] leaves it normally, the transaction is committed, and
    what the COMMIT raises is raised by [run_transaction]: it is outside of
    the [try].  An exception leaves it with the transaction rolled back; the
    block lets every exception through but [psycopg.Rollback], after which
    the function goes on behind the block, where it ends and returns. *)
Definition run_transaction (conn : connection) (max_retries : Z) : run :=
  let t0 := committed conn in
  match for_retry max_retries t0 (range 1 (max_retries + 1)) (transaction_enter conn) with
  | (Returned, s, tr) =>
      match commit_error s with
      | None =>
          {| outcome := Returned;
             conn_after := transaction_commit s;
             trace := Begin :: tr ++ [Commit] |}
      | Some e =>
          {| outcome := Raised e;
             conn_after := transaction_rollback t0 s;
             trace := Begin :: tr ++ [Abort] |}
      end
  | (Raised e, s, tr) =>
      {| outcome := if is_Rollback e then Returned else Raised e;
         conn_after := transaction_rollback t0 s;
         trace := Begin :: tr ++ [Abort] |}
  end.

End Workload.

Arguments session : clear implicits.
Arguments connection : clear implicits.
Arguments run : clear implicits.

(** ** Scenarios *)

(** The scenario of the script: accounts 1 and 2 hold 1000 and 250. *)
Definition demo_rows : accounts := <[1%N := Some 1000]> (<[2%N := Some 250]> ∅).

Definition demo_session : session unit := {| rows := demo_rows; env := tt |}.

(** A store that will refuse the next [pending] attempts of a transfer. *)
Definition demo_connection (pending : nat) : connection nat :=
  {| committed := demo_rows; store := pending |}.

(** The transfer of the script against that store: while attempts are to be
    refused, the conflict comes after the first UPDATE has been applied. *)
Definition contended_transfer (conn : session nat) : completion * session nat :=
  match env conn with
  | S pending =>
      (Raised (SerializationFailure "restart transaction"),
       {| rows := update_balance_sub 100 1 (rows conn); env := pending |})
  | O => transfer_funds conn 1 2 100
  end.

(** An operation that loses its connection after its first UPDATE. *)
Definition broken_transfer (conn : session nat) : completion * session nat :=
  match env conn with
  | S pending =>
      (Raised (SerializationFailure "restart transaction"),
       {| rows := update_balance_sub 100 1 (rows conn); env := pending |})
  | O =>
      (Raised (Error "server closed the connection unexpectedly"),
       {| rows := update_balance_sub 100 1 (rows conn); env := O |})
  end.

(** In the scenarios the random source gives one half every time, and the
    store accepts every COMMIT. *)
Definition no_jitter (retry : Z) : float := 0x1p-1%float.

Definition commits {server : Type} (conn : session server) : option exception :=
  None.

(** An operation that gives up its transaction. *)
Definition abandoned_transfer (conn : session nat) : completion * session nat :=
  (Raised psycopg_Rollback,
   {| rows := update_balance_sub 100 1 (rows conn); env := env conn |}).

(** ** The rest of the workload *)

(** [UPSERT INTO accounts (id, balance) VALUES (%s, 1000), (%s, 250)]: each of
    the two rows is inserted, or takes the place of the row that has its id. *)
Definition upsert_accounts (id1 id2 : N) (t : accounts) : accounts :=
  <[id2 := Some 250]> (<[id1 := Some 1000]> t).

(** [DELETE FROM accounts]: no WHERE clause, every row goes. *)
Definition delete_from_accounts (t : accounts) : accounts := ∅.

(** [cur.execute] of a statement outside of a transaction block: it takes
    effect on the rows of the connection. *)
Definition execute_statement {server : Type}
    (stmt : accounts -> accounts) (conn : connection server) : connection server :=
  {| committed := stmt (committed conn); store := store conn |}.

(** [create_accounts], [id1] and [id2] being what the two calls of
    [uuid.uuid4()] give.  [CREATE TABLE IF NOT EXISTS] leaves a table that is
    there as it is, and a table that is not there is the table without rows.
    What the store does with an UPSERT that names one id twice is not in the
    script: the properties of [create_accounts] are for two distinct ids. *)
Definition create_accounts {server : Type}
    (id1 id2 : N) (conn : connection server) : list N * connection server :=
  let conn := execute_statement (upsert_accounts id1 id2) conn in
  ([id1; id2], conn).

Definition delete_accounts {server : Type} (conn : connection server)
  : connection server :=
  execute_statement delete_from_accounts conn.

(** What [print_balances] prints, line by line. *)
Inductive line : Type :=
  | Balances_at               (* f"Balances at {time.asctime()}:" *)
  | Account (id : N) (balance : Z).
                              (* "account id: {0}  balance: ${1:2d}" *)

(** The loop of [print_balances] over the rows of the cursor: a balance that
    is [None] cannot be formatted with [2d]. *)
Fixpoint print_rows (cur : list (N * option Z)) : completion * list line :=
  match cur with
  | [] => (Returned, [])
  | (id, Some balance) :: cur =>
      let '(c, out) := print_rows cur in
      (c, Account id balance :: out)
  | (id, None) :: cur =>
      (Raised (TypeError "unsupported format string passed to NoneType.__format__"),
       [])
  end.

(** [print_balances]: the SELECT has no ORDER BY, the rows come in the order
    of the store, here that of [map_to_list]. *)
Definition print_balances {server : Type} (conn : connection server)
  : completion * list line :=
  let '(c, out) := print_rows (map_to_list (committed conn)) in
  (c, Balances_at :: out).

(** [list.pop()]: the last item and the list without it; on the empty list
    it raises IndexError. *)
Definition pop {A : Type} (l : list A) : option (A * list A) :=
  match rev l with
  | [] => None
  | x :: r => Some (x, rev r)
  end.

(** The body of the [with psycopg.connect(...) as conn] block of
    [execute_workload], on a connection that was established and against a
    store that raises nothing of its own: how it ends, the connection at that
    point and what was printed. *)
Definition execute_workload {server : Type} (random_random : Z -> float)
    (id1 id2 : N) (conn : connection server)
  : completion * connection server * list line :=
  let '(ids, conn) := create_accounts id1 id2 conn in
  match print_balances conn with
  | (Raised e, out) => (Raised e, conn, out)
  | (Returned, out) =>
      let amount := 100 in
      match pop ids with
      | None => (Raised (Exception "pop from empty list"), conn, out)
      | Some (toId, ids) =>
          match pop ids with
          | None => (Raised (Exception "pop from empty list"), conn, out)
          | Some (fromId, ids) =>
              let r :=
                run_transaction random_random commits
                  (fun conn => transfer_funds conn fromId toId amount) conn 3 in
              let conn := conn_after r in
              let after_try :=
                match print_balances conn with
                | (Raised e, out') => (Raised e, conn, out ++ out')
                | (Returned, out') => (Returned, delete_accounts conn, out ++ out')
                end in
              match outcome r with
              | Returned => after_try
              | Raised (ValueError _) =>
                  (* except ValueError as ve: pass *)
                  after_try
              | Raised e =>
                  (* except psycopg.Error as e: raise e, or no clause matches *)
                  (Raised e, conn, out)
              end
          end
      end
  end.

(** ** [parse_cmdline] *)






(** Unfolding the executor and one step of its loop. *)
Ltac unfold_run_transaction := unfold run_transaction.
Ltac step_for_retry := cbn [app for_retry rollback outcome conn_after trace].

(** * Properties *)

(** ** The accounts table *)

Lemma total_insert (t : accounts) (id : N) (b b' : option Z) :
  t !! id = Some b ->
  total (<[id := b']> t) = total t - balance_value b + balance_value b'.
Proof.
  intros Hid. unfold total.
  rewrite <- (insert_delete_eq t id b').
  rewrite map_fold_insert_L; [| intros; lia | apply lookup_delete_eq].
  rewrite (map_fold_delete_L _ 0 id b t); [lia | intros; lia | exact Hid].
Qed.

Lemma update_balance_sub_insert (t : accounts) (id : N) (a b : Z) :
  t !! id = Some (Some b) ->
  update_balance_sub a id t = <[id := Some (b - a)]> t.
Proof.
  intros Hid. unfold update_balance_sub. apply map_eq. intros j.
  destruct (decide (id = j)) as [<- | Hne].
  - rewrite lookup_alter_eq, lookup_insert_eq, Hid. reflexivity.
  - rewrite lookup_alter_ne, lookup_insert_ne by exact Hne. reflexivity.
Qed.

Lemma update_balance_add_insert (t : accounts) (id : N) (a b : Z) :
  t !! id = Some (Some b) ->
  update_balance_add a id t = <[id := Some (b + a)]> t.
Proof.
  intros Hid. unfold update_balance_add. apply map_eq. intros j.
  destruct (decide (id = j)) as [<- | Hne].
  - rewrite lookup_alter_eq, lookup_insert_eq, Hid. reflexivity.
  - rewrite lookup_alter_ne, lookup_insert_ne by exact Hne. reflexivity.
Qed.

(** An UPDATE whose WHERE clause matches no row changes nothing. *)
Lemma update_balance_add_missing (t : accounts) (id : N) (a : Z) :
  t !! id = None -> update_balance_add a id t = t.
Proof.
  intros Hid. unfold update_balance_add. apply map_eq. intros j.
  destruct (decide (id = j)) as [<- | Hne].
  - rewrite lookup_alter_eq, Hid. reflexivity.
  - rewrite lookup_alter_ne by exact Hne. reflexivity.
Qed.

(** ** [transfer_funds] *)

Section Ledger.

Context {server : Type}.
Implicit Types conn : session server.

(** The two writes of a transfer, in the order of the source. *)
Lemma transfer_funds_passes conn (frm to : N) (a b : Z) :
  rows conn !! frm = Some (Some b) ->
  a <= b ->
  transfer_funds conn frm to a =
    (Returned,
     execute (update_balance_add a to) (execute (update_balance_sub a frm) conn)).
Proof.
  intros Hfrm Hle. unfold transfer_funds, select_balance. rewrite Hfrm.
  destruct (Z.ltb_spec b a) as [Hlt | _]; [lia | reflexivity].
Qed.

(** A transfer that returns has read a balance that covers the amount. *)
Lemma transfer_funds_Returned_inv conn conn' (frm to : N) (a : Z) :
  transfer_funds conn frm to a = (Returned, conn') ->
  exists b, rows conn !! frm = Some (Some b) /\ a <= b /\
    conn' = execute (update_balance_add a to)
              (execute (update_balance_sub a frm) conn).
Proof.
  unfold transfer_funds, select_balance.
  destruct (rows conn !! frm) as [[b |] |]; try discriminate.
  destruct (Z.ltb_spec b a) as [Hlt | Hge]; [discriminate |].
  intros [= <-]. exists b. auto.
Qed.

(** A transfer from an account to itself that returns leaves the balance as
    it was: the second UPDATE undoes the first. *)
Lemma transfer_funds_self conn conn' (id : N) (a b : Z) :
  rows conn !! id = Some (Some b) ->
  transfer_funds conn id id a = (Returned, conn') ->
  rows conn' !! id = Some (Some b).
Proof.
  intros Hid Hrun.
  apply transfer_funds_Returned_inv in Hrun as (b' & Hb' & _ & ->).
  rewrite Hid in Hb'. injection Hb' as <-. cbn.
  unfold update_balance_add, update_balance_sub.
  rewrite !lookup_alter_eq, Hid. cbn. do 2 f_equal. lia.
Qed.

(** C1 (as amended): every call of [transfer_funds] that returns, moving a
    positive amount [a] from an account with balance [b1] to another account
    with balance [b2], leaves [b1 - a] on the first and [b2 + a] on the
    second, touches no other row, and keeps the sum of the two balances and
    the sum of all balances. *)
Theorem transfer_funds_moves_amount conn conn' (frm to : N) (a b1 b2 : Z) :
  frm <> to ->
  0 < a ->
  rows conn !! frm = Some (Some b1) ->
  rows conn !! to = Some (Some b2) ->
  transfer_funds conn frm to a = (Returned, conn') ->
  rows conn' !! frm = Some (Some (b1 - a)) /\
  rows conn' !! to = Some (Some (b2 + a)) /\
  (forall id, id <> frm -> id <> to -> rows conn' !! id = rows conn !! id) /\
  balance frm (rows conn') + balance to (rows conn') =
    balance frm (rows conn) + balance to (rows conn) /\
  total (rows conn') = total (rows conn).
Proof.
  intros Hne _ Hfrm Hto Hrun.
  apply transfer_funds_Returned_inv in Hrun as (b & Hb & _ & ->).
  rewrite Hfrm in Hb. injection Hb as <-. cbn.
  rewrite (update_balance_sub_insert _ _ _ _ Hfrm).
  rewrite (update_balance_add_insert _ _ _ b2)
    by (rewrite lookup_insert_ne by exact Hne; exact Hto).
  assert (Hfrm' : <[to := Some (b2 + a)]> (<[frm := Some (b1 - a)]> (rows conn)) !! frm
                  = Some (Some (b1 - a))).
  { rewrite lookup_insert_ne by congruence. apply lookup_insert_eq. }
  assert (Hto' : <[to := Some (b2 + a)]> (<[frm := Some (b1 - a)]> (rows conn)) !! to
                 = Some (Some (b2 + a))) by apply lookup_insert_eq.
  repeat split.
  - exact Hfrm'.
  - exact Hto'.
  - intros id Hid1 Hid2. rewrite !lookup_insert_ne by congruence. reflexivity.
  - unfold balance. rewrite Hfrm', Hto', Hfrm, Hto. cbn. lia.
  - rewrite (total_insert _ _ (Some b2))
      by (rewrite lookup_insert_ne by exact Hne; exact Hto).
    rewrite (total_insert _ _ _ _ Hfrm). cbn. lia.
Qed.

(** C2: when the balance [b] of the source is below the amount [a],
    [transfer_funds] raises the insufficient-funds [RuntimeError], which
    carries the source id, the balance and the amount, and the session is
    left as it was, so neither balance changes. *)
Theorem transfer_funds_insufficient_funds conn (frm to : N) (a b : Z) :
  rows conn !! frm = Some (Some b) ->
  b < a ->
  transfer_funds conn frm to a = (Raised (RuntimeError frm b a), conn).
Proof.
  intros Hfrm Hlt. unfold transfer_funds, select_balance. rewrite Hfrm.
  destruct (Z.ltb_spec b a) as [_ | Hge]; [reflexivity | lia].
Qed.

(** C8: for an amount [a <= 0] and a source balance [b >= a] the guard does
    not fire: the call returns, both UPDATEs are applied, and between two
    distinct accounts the source ends at [b - a], which is not below [b], and
    the destination at [b2 + a], which is not above [b2]. *)
Theorem transfer_funds_nonpositive_amount conn (frm to : N) (a b : Z) :
  a <= 0 ->
  rows conn !! frm = Some (Some b) ->
  a <= b ->
  exists conn',
    transfer_funds conn frm to a = (Returned, conn') /\
    rows conn' = update_balance_add a to (update_balance_sub a frm (rows conn)) /\
    (frm <> to ->
       rows conn' !! frm = Some (Some (b - a)) /\ b <= b - a /\
       forall b2, rows conn !! to = Some (Some b2) ->
         rows conn' !! to = Some (Some (b2 + a)) /\ b2 + a <= b2).
Proof.
  intros Ha Hfrm Hle. eexists. split; [| split].
  - apply (transfer_funds_passes conn frm to a b Hfrm Hle).
  - reflexivity.
  - intros Hne. cbn. unfold update_balance_add.
    rewrite lookup_alter_ne by congruence.
    rewrite (update_balance_sub_insert _ _ _ _ Hfrm), lookup_insert_eq.
    split; [reflexivity | split; [lia |]].
    intros b2 Hto. rewrite lookup_alter_eq, lookup_insert_ne, Hto by exact Hne.
    split; [reflexivity | lia].
Qed.

(** The destination is never read: it has no part in how the call ends. *)
Lemma transfer_funds_ignores_destination conn (frm to to' : N) (a : Z) :
  fst (transfer_funds conn frm to' a) = fst (transfer_funds conn frm to a).
Proof.
  unfold transfer_funds.
  destruct (select_balance frm (rows conn)) as [[b |] |]; try reflexivity.
  destruct (b <? a); reflexivity.
Qed.

(** C10: the way [transfer_funds] ends does not depend on the destination;
    when no row has the destination id and the source covers the amount, the
    call returns, the source alone is rewritten, to [b - a], and the sum of
    all balances goes down by [a], so it is not kept unless [a] is 0. *)
Theorem transfer_funds_missing_destination conn (frm to : N) (a b : Z) :
  rows conn !! to = None ->
  rows conn !! frm = Some (Some b) ->
  a <= b ->
  let conn' := {| rows := <[frm := Some (b - a)]> (rows conn); env := env conn |} in
  transfer_funds conn frm to a = (Returned, conn') /\
  rows conn' !! to = None /\
  total (rows conn') = total (rows conn) - a /\
  (a <> 0 -> total (rows conn') <> total (rows conn)) /\
  (forall to', fst (transfer_funds conn frm to' a) = fst (transfer_funds conn frm to a)).
Proof.
  intros Hto Hfrm Hle conn'.
  assert (Hne : frm <> to) by (intros ->; congruence).
  assert (Hto' : <[frm := Some (b - a)]> (rows conn) !! to = None)
    by (rewrite lookup_insert_ne by exact Hne; exact Hto).
  assert (Htotal : total (rows conn') = total (rows conn) - a).
  { cbn. rewrite (total_insert _ _ _ _ Hfrm). cbn. lia. }
  split; [| split; [exact Hto' | split; [exact Htotal | split]]].
  - rewrite (transfer_funds_passes conn frm to a b Hfrm Hle).
    unfold execute, conn'. cbn.
    rewrite (update_balance_sub_insert _ _ _ _ Hfrm).
    rewrite (update_balance_add_missing _ _ _ Hto'). reflexivity.
  - intros Ha. rewrite Htotal. lia.
  - intros to'. apply transfer_funds_ignores_destination.
Qed.

End Ledger.

Lemma transfer_funds_moves_amount_witness :
  rows (snd (transfer_funds demo_session 1 2 100)) !! 1%N = Some (Some (1000 - 100)) /\
  rows (snd (transfer_funds demo_session 1 2 100)) !! 2%N = Some (Some (250 + 100)).
Proof.
  destruct (transfer_funds_moves_amount demo_session
              (snd (transfer_funds demo_session 1 2 100)) 1 2 100 1000 250)
    as (H1 & H2 & _); [discriminate | lia | reflexivity | reflexivity | reflexivity |].
  split; [exact H1 | exact H2].
Defined.

(** C1 as stated fails for a transfer from an account to itself: with 1000 on
    account 1, [transfer_funds conn 1 1 100] returns and the balance is still
    1000, not [1000 - 100]. *)
Lemma transfer_funds_self_counterexample :
  ~ (forall (conn conn' : session unit) (frm to : N) (a b1 b2 : Z),
       0 < a ->
       rows conn !! frm = Some (Some b1) ->
       rows conn !! to = Some (Some b2) ->
       transfer_funds conn frm to a = (Returned, conn') ->
       rows conn' !! frm = Some (Some (b1 - a)) /\
       rows conn' !! to = Some (Some (b2 + a)) /\
       balance frm (rows conn') + balance to (rows conn') =
         balance frm (rows conn) + balance to (rows conn)).
Proof.
  intros H.
  destruct (H demo_session (snd (transfer_funds demo_session 1 1 100))
              1%N 1%N 100 1000 1000) as (H1 & _);
    [lia | reflexivity | reflexivity | reflexivity |].
  discriminate H1.
Qed.

(** ** [range] *)

Lemma length_range (start stop : Z) :
  length (range start stop) = Z.to_nat (stop - start).
Proof. unfold range. rewrite length_map, length_seq. reflexivity. Qed.

Lemma range_nil (start stop : Z) : stop <= start -> range start stop = [].
Proof.
  intros Hle. unfold range.
  replace (Z.to_nat (stop - start)) with O by lia. reflexivity.
Qed.

Lemma range_cons (start stop : Z) :
  start < stop -> range start stop = start :: range (start + 1) stop.
Proof.
  intros Hlt. unfold range.
  replace (Z.to_nat (stop - start)) with (S (Z.to_nat (stop - (start + 1)))) by lia.
  cbn [seq map]. f_equal; [lia |].
  rewrite <- seq_shift, map_map. apply map_ext. intros i. lia.
Qed.

Lemma range_app (start mid stop : Z) :
  start <= mid -> mid <= stop ->
  range start stop = range start mid ++ range mid stop.
Proof.
  intros Hlo Hhi.
  remember (Z.to_nat (mid - start)) as n eqn:Hn.
  revert start Hlo Hn. induction n as [| n IH]; intros start Hlo Hn.
  - replace start with mid by lia. rewrite (range_nil mid mid) by lia. reflexivity.
  - rewrite (range_cons start stop), (range_cons start mid) by lia.
    cbn [app]. f_equal. apply IH; lia.
Qed.

(** ** [run_transaction] *)

Section Executor.

Context {server : Type}.
Variable random_random : Z -> float.
Variable commit_error : session server -> option exception.
Variable op : session server -> completion * session server.

Implicit Types (conn : connection server) (s : session server).
Implicit Types (tr : list event).

Local Abbreviation for_retry := (for_retry random_random op).
Local Abbreviation run_transaction :=
  (run_transaction random_random commit_error op).

Lemma invocations_app tr1 tr2 :
  invocations (tr1 ++ tr2) = (invocations tr1 + invocations tr2)%nat.
Proof. unfold invocations. rewrite List.filter_app, length_app. reflexivity. Qed.

(** With [max_retries >= 1] the loop is left in its first iteration, whatever
    the operation does: by the [return], by the exception of
    [conn.rollback()] when the operation conflicts, or by the exception of the
    operation. *)
Lemma for_retry_first (max_retries : Z) (t0 : accounts) s :
  1 <= max_retries ->
  for_retry max_retries t0 (range 1 (max_retries + 1)) s =
    match op s with
    | (Returned, s1) => (Returned, s1, [Call 1])
    | (Raised e, s1) =>
        if is_SerializationFailure e
        then (Raised rollback_forbidden, s1, [Call 1; Rollback])
        else (Raised e, s1, [Call 1])
    end.
Proof.
  intros Hmax. rewrite range_cons by lia. step_for_retry.
  destruct (op s) as [[| e] s1]; [reflexivity |].
  destruct (is_SerializationFailure e); [reflexivity |].
  destruct (is_psycopg_Error e); reflexivity.
Qed.

(** C3 (what the code does instead): with [max_retries >= 1], when the first
    invocation of the operation raises a conflict, [conn.rollback()] is called
    inside the transaction block and raises; [run_transaction] raises that
    error after this single invocation, for every [max_retries]: it does not
    sleep, does not invoke the operation again and does not raise the
    [ValueError].  The transaction is rolled back by the block. *)
Theorem run_transaction_conflict_not_retried conn (max_retries : Z) (e : exception) :
  1 <= max_retries ->
  fst (op (transaction_enter conn)) = Raised e ->
  is_SerializationFailure e = true ->
  run_transaction conn max_retries =
    {| outcome := Raised rollback_forbidden;
       conn_after :=
         {| committed := committed conn;
            store := env (snd (op (transaction_enter conn))) |};
       trace := [Begin; Call 1; Rollback; Abort] |}.
Proof.
  intros Hmax Hraise Hclass. unfold_run_transaction.
  rewrite (for_retry_first _ _ _ Hmax).
  destruct (op (transaction_enter conn)) as [c s1]. cbn [fst snd] in *. subst c.
  rewrite Hclass. reflexivity.
Qed.

(** C4 (what the code does instead): with [1 <= k < max_retries], when the
    first of the [k] conflicts is raised, [run_transaction] raises the error of
    [conn.rollback()]: the operation has been invoked once, not [k + 1] times,
    nothing is committed, and what the operation would do when invoked again
    plays no part. *)
Theorem run_transaction_second_attempt_not_made conn (max_retries : Z) (k : nat)
    (e : exception) :
  (1 <= k)%nat ->
  Z.of_nat k < max_retries ->
  fst (op (transaction_enter conn)) = Raised e ->
  is_SerializationFailure e = true ->
  outcome (run_transaction conn max_retries) = Raised rollback_forbidden /\
  invocations (trace (run_transaction conn max_retries)) = 1%nat /\
  (invocations (trace (run_transaction conn max_retries)) < S k)%nat /\
  committed (conn_after (run_transaction conn max_retries)) = committed conn.
Proof.
  intros Hk Hmax Hraise Hclass. unfold_run_transaction.
  rewrite for_retry_first by lia.
  destruct (op (transaction_enter conn)) as [c s1]. cbn [fst] in Hraise. subst c.
  rewrite Hclass. cbn. repeat split. lia.
Qed.

(** C5 (as amended): with [max_retries >= 1], when the invocation of the
    operation raises an exception that is neither a [SerializationFailure]
    nor [psycopg.Rollback], [run_transaction] raises that same exception: the
    operation is not invoked again, nothing sleeps, and the transaction is
    rolled back, the committed rows being those from before the call. *)
Theorem run_transaction_propagates conn (max_retries : Z) (e : exception) :
  1 <= max_retries ->
  fst (op (transaction_enter conn)) = Raised e ->
  is_SerializationFailure e = false ->
  is_Rollback e = false ->
  run_transaction conn max_retries =
    {| outcome := Raised e;
       conn_after :=
         {| committed := committed conn;
            store := env (snd (op (transaction_enter conn))) |};
       trace := [Begin; Call 1; Abort] |}.
Proof.
  intros Hmax Hraise Hclass Hrollback. unfold_run_transaction.
  rewrite (for_retry_first _ _ _ Hmax).
  destruct (op (transaction_enter conn)) as [c s1]. cbn [fst snd] in *. subst c.
  rewrite Hclass, Hrollback. reflexivity.
Qed.

(** C6: whenever [run_transaction] ends by raising, be it the exception of the
    operation or the [ValueError] of exhaustion, the block is left through the
    rollback of the transaction scope and the committed rows are those from
    before the call: no write of the operation is kept. *)
Theorem run_transaction_raise_rolls_back conn (max_retries : Z) (e : exception) :
  outcome (run_transaction conn max_retries) = Raised e ->
  committed (conn_after (run_transaction conn max_retries)) = committed conn /\
  last (trace (run_transaction conn max_retries)) = Some Abort.
Proof.
  unfold_run_transaction.
  destruct (for_retry _ _ _ _) as [[[| e'] s'] tr].
  - destruct (commit_error s'); cbn [outcome conn_after trace]; [| discriminate].
    intros _. split; [reflexivity |].
    change (last ((Begin :: tr) ++ [Abort]) = Some Abort). apply last_snoc.
  - cbn [outcome conn_after trace]. intros _. split; [reflexivity |].
    change (last ((Begin :: tr) ++ [Abort]) = Some Abort). apply last_snoc.
Qed.

(** C9: with [max_retries <= 0] the loop has no iteration: the operation is not
    invoked, [run_transaction] at once raises the [ValueError] that carries
    [max_retries], and the connection is as it was. *)
Theorem run_transaction_no_attempt conn (max_retries : Z) :
  max_retries <= 0 ->
  run_transaction conn max_retries =
    {| outcome := Raised (ValueError max_retries);
       conn_after := conn;
       trace := [Begin; Abort] |} /\
  invocations (trace (run_transaction conn max_retries)) = O.
Proof.
  intros Hmax. unfold_run_transaction.
  rewrite range_nil by lia. cbn. destruct conn. split; reflexivity.
Qed.

End Executor.

(** ** The scenarios *)

(** The transfer of the script: 100 from the account with 1000 to the one with
    250 leaves 900 and 350. *)
Example transfer_funds_demo :
  transfer_funds demo_session 1 2 100 =
    (Returned,
     {| rows := <[1%N := Some 900]> (<[2%N := Some 350]> ∅); env := tt |}).
Proof. reflexivity. Qed.

(** The same transfer through [run_transaction]: committed at the first
    attempt. *)
Example run_transaction_demo :
  run_transaction no_jitter commits contended_transfer (demo_connection 0) 3 =
    {| outcome := Returned;
       conn_after :=
         {| committed := <[1%N := Some 900]> (<[2%N := Some 350]> ∅); store := O |};
       trace := [Begin; Call 1; Commit] |}.
Proof. reflexivity. Qed.

(** A transfer that the balance does not cover, through [run_transaction]: the
    [RuntimeError] is no psycopg error, no [except] clause takes it. *)
Example run_transaction_insufficient_demo :
  run_transaction no_jitter commits
    (fun conn : session nat => transfer_funds conn 2 1 2000) (demo_connection 0) 3 =
    {| outcome := Raised (RuntimeError 2 250 2000);
       conn_after := demo_connection 0;
       trace := [Begin; Call 1; Abort] |}.
Proof. reflexivity. Qed.

Lemma transfer_funds_insufficient_funds_witness :
  transfer_funds demo_session 2 1 2000 =
    (Raised (RuntimeError 2 250 2000), demo_session).
Proof.
  apply (transfer_funds_insufficient_funds demo_session 2 1 2000 250);
    [reflexivity | lia].
Defined.

Lemma transfer_funds_nonpositive_amount_witness :
  exists conn' : session unit,
    transfer_funds demo_session 1 2 (-100) = (Returned, conn') /\
    rows conn' !! 1%N = Some (Some (1000 - -100)) /\
    rows conn' !! 2%N = Some (Some (250 + -100)).
Proof.
  destruct (transfer_funds_nonpositive_amount demo_session 1 2 (-100) 1000)
    as (conn' & Hrun & _ & Hrows); [lia | reflexivity | lia |].
  destruct Hrows as (Hfrm & _ & Hto); [discriminate |].
  destruct (Hto 250) as [Hto' _]; [reflexivity |].
  exists conn'. split; [exact Hrun | split; [exact Hfrm | exact Hto']].
Defined.

Lemma transfer_funds_missing_destination_witness :
  transfer_funds demo_session 1 3 100 =
    (Returned, {| rows := <[1%N := Some (1000 - 100)]> demo_rows; env := tt |}) /\
  total (<[1%N := Some (1000 - 100)]> demo_rows) = total demo_rows - 100.
Proof.
  destruct (transfer_funds_missing_destination demo_session 1 3 100 1000)
    as (Hrun & _ & Htotal & _); [reflexivity | reflexivity | lia |].
  split; [exact Hrun | exact Htotal].
Defined.

(** The store refuses every attempt, [max_retries] is 3: one invocation, and
    the error of [conn.rollback()] instead of the [ValueError]. *)
Lemma run_transaction_conflict_not_retried_witness :
  run_transaction no_jitter commits contended_transfer (demo_connection 5) 3 =
    {| outcome := Raised rollback_forbidden;
       conn_after := demo_connection 4;
       trace := [Begin; Call 1; Rollback; Abort] |}.
Proof.
  apply (run_transaction_conflict_not_retried no_jitter commits contended_transfer
           (demo_connection 5) 3 (SerializationFailure "restart transaction"));
    [lia | reflexivity | reflexivity].
Defined.

(** The store refuses the first attempt only, the second invocation would
    return: it is not made. *)
Lemma run_transaction_second_attempt_not_made_witness :
  fst (contended_transfer (transaction_enter (demo_connection 0))) = Returned /\
  outcome (run_transaction no_jitter commits contended_transfer (demo_connection 1) 3)
    = Raised rollback_forbidden /\
  invocations
    (trace (run_transaction no_jitter commits contended_transfer (demo_connection 1) 3))
    = 1%nat /\
  committed
    (conn_after (run_transaction no_jitter commits contended_transfer (demo_connection 1) 3))
    = demo_rows.
Proof.
  split; [reflexivity |].
  destruct (run_transaction_second_attempt_not_made no_jitter commits
              contended_transfer (demo_connection 1) 3 1
              (SerializationFailure "restart transaction"))
    as (Hout & Hinv & _ & Hrows); [lia | lia | reflexivity | reflexivity |].
  split; [exact Hout | split; [exact Hinv | exact Hrows]].
Defined.

(** C5 as stated fails for [psycopg.Rollback], which is no conflict: the block
    swallows it, the transaction is rolled back and [run_transaction]
    returns instead of raising it. *)
Lemma run_transaction_Rollback_counterexample :
  ~ (forall (op : session nat -> completion * session nat) (conn : connection nat)
            (max_retries : Z) (e : exception),
       1 <= max_retries ->
       fst (op (transaction_enter conn)) = Raised e ->
       is_SerializationFailure e = false ->
       outcome (run_transaction no_jitter commits op conn max_retries) = Raised e).
Proof.
  intros H.
  specialize (H abandoned_transfer (demo_connection 0) 3 psycopg_Rollback).
  discriminate H; [lia | reflexivity | reflexivity].
Qed.

Lemma run_transaction_propagates_witness :
  run_transaction no_jitter commits broken_transfer (demo_connection 0) 3 =
    {| outcome := Raised (Error "server closed the connection unexpectedly");
       conn_after := demo_connection 0;
       trace := [Begin; Call 1; Abort] |}.
Proof.
  apply (run_transaction_propagates no_jitter commits broken_transfer
           (demo_connection 0) 3
           (Error "server closed the connection unexpectedly"));
    [lia | reflexivity | reflexivity | reflexivity].
Defined.

Lemma run_transaction_raise_rolls_back_witness :
  committed
    (conn_after (run_transaction no_jitter commits broken_transfer (demo_connection 0) 3))
    = demo_rows.
Proof.
  destruct (run_transaction_raise_rolls_back no_jitter commits broken_transfer
              (demo_connection 0) 3
              (Error "server closed the connection unexpectedly"))
    as (Hrows & _); [reflexivity | exact Hrows].
Defined.

Lemma run_transaction_no_attempt_witness :
  run_transaction no_jitter commits contended_transfer (demo_connection 0) 0 =
    {| outcome := Raised (ValueError 0);
       conn_after := demo_connection 0;
       trace := [Begin; Abort] |}.
Proof.
  destruct (run_transaction_no_attempt no_jitter commits contended_transfer
              (demo_connection 0) 0) as (Hrun & _); [lia | exact Hrun].
Defined.

(** ** The backoff delay *)




(** In binary64 the delay of the first attempt for the sample [1 - 2**-53]:
    [u + 0.5] rounds to 1.5 and [0.2 * 1.5] to 0.30000000000000004. *)
Example sleep_seconds_random_max :
  sleep_seconds 1 random_max = Some 0x1.3333333333334p-2%float /\
  float_value 0x1.3333333333334p-2 = Some (5404319552844596 # 18014398509481984)%Q.
Proof. split; reflexivity. Qed.

(** From attempt 1024 on the integer [2**retry] has no float. *)
Example sleep_seconds_overflow : sleep_seconds 1024 random_max = None.
Proof. reflexivity. Qed.


(** * Further properties *)

(** ** [transfer_funds]: failures, invariants, round trip *)

Section Ledger_more.

Context {server : Type}.
Implicit Types conn : session server.

(** What a transfer raises by itself, the store raising nothing, is the
    insufficient-funds [RuntimeError] or a [TypeError]: no psycopg error. *)
Lemma transfer_funds_Raised_class conn conn' (frm to : N) (a : Z) (e : exception) :
  transfer_funds conn frm to a = (Raised e, conn') ->
  is_psycopg_Error e = false /\ is_SerializationFailure e = false /\
  is_Rollback e = false /\ conn' = conn.
Proof.
  unfold transfer_funds.
  destruct (select_balance frm (rows conn)) as [[b |] |].
  - destruct (b <? a); [| discriminate]. intros [= <- <-]. repeat split.
  - intros [= <- <-]. repeat split.
  - intros [= <- <-]. repeat split.
Qed.

(** When no row has the source id, or the row has a NULL balance, the
    transfer raises a [TypeError] before any comparison with the amount, and
    the session is unchanged. *)
Theorem transfer_funds_no_source_balance conn (frm to : N) (a : Z) :
  rows conn !! frm = None \/ rows conn !! frm = Some None ->
  exists msg, transfer_funds conn frm to a = (Raised (TypeError msg), conn).
Proof.
  unfold transfer_funds, select_balance.
  intros [-> | ->]; eexists; reflexivity.
Qed.

(** With an amount that is not negative, a table without negative balances
    stays without negative balances, however the transfer ends and whether or
    not source and destination differ. *)
Theorem transfer_funds_keeps_nonnegative conn (frm to : N) (a : Z) :
  0 <= a ->
  (forall id b, rows conn !! id = Some (Some b) -> 0 <= b) ->
  forall id b,
    rows (snd (transfer_funds conn frm to a)) !! id = Some (Some b) -> 0 <= b.
Proof.
  intros Ha Hinv id b. unfold transfer_funds, select_balance.
  destruct (rows conn !! frm) as [[bf |] |] eqn:Hfrm; cbn [snd]; try apply Hinv.
  destruct (Z.ltb_spec bf a) as [Hlt | Hge]; cbn [snd]; [apply Hinv |].
  cbn [execute rows]. unfold update_balance_add, update_balance_sub.
  intros Hlook.
  destruct (decide (to = id)) as [<- | Hto].
  - rewrite lookup_alter_eq in Hlook.
    destruct (decide (frm = to)) as [<- | Hne].
    + rewrite lookup_alter_eq, Hfrm in Hlook. cbn in Hlook.
      injection Hlook as <-. lia.
    + rewrite lookup_alter_ne in Hlook by exact Hne.
      destruct (rows conn !! to) as [[bt |] |] eqn:Hto; cbn in Hlook;
        try discriminate.
      injection Hlook as <-. specialize (Hinv to bt Hto). lia.
  - rewrite lookup_alter_ne in Hlook by exact Hto.
    destruct (decide (frm = id)) as [<- | Hne].
    + rewrite lookup_alter_eq, Hfrm in Hlook. cbn in Hlook.
      injection Hlook as <-. lia.
    + rewrite lookup_alter_ne in Hlook by exact Hne. exact (Hinv id b Hlook).
Qed.

(** A transfer of [a] between two distinct accounts followed by the transfer
    of [a] back gives the session from before, when the source covers [a] and
    the balance of the destination is not negative; both calls return. *)
Theorem transfer_funds_back_and_forth conn (frm to : N) (a b1 b2 : Z) :
  frm <> to ->
  rows conn !! frm = Some (Some b1) ->
  rows conn !! to = Some (Some b2) ->
  a <= b1 ->
  0 <= b2 ->
  exists conn1,
    transfer_funds conn frm to a = (Returned, conn1) /\
    transfer_funds conn1 to frm a = (Returned, conn).
Proof.
  intros Hne Hfrm Hto Hle Hb2.
  eexists. split; [apply (transfer_funds_passes conn frm to a b1 Hfrm Hle) |].
  set (conn1 := execute (update_balance_add a to)
                  (execute (update_balance_sub a frm) conn)).
  assert (Hfrm1 : rows conn1 !! frm = Some (Some (b1 - a))).
  { cbn. unfold update_balance_add, update_balance_sub.
    rewrite lookup_alter_ne by congruence. rewrite lookup_alter_eq, Hfrm.
    reflexivity. }
  assert (Hto1 : rows conn1 !! to = Some (Some (b2 + a))).
  { cbn. unfold update_balance_add, update_balance_sub.
    rewrite lookup_alter_eq, lookup_alter_ne, Hto by exact Hne. reflexivity. }
  rewrite (transfer_funds_passes conn1 to frm a (b2 + a) Hto1) by lia.
  f_equal. destruct conn as [t s]. unfold execute. cbn [rows env] in *. f_equal.
  rewrite (update_balance_sub_insert _ _ _ _ Hto1).
  rewrite (update_balance_add_insert _ _ _ (b1 - a))
    by (rewrite lookup_insert_ne by congruence; exact Hfrm1).
  apply map_eq. intros id.
  destruct (decide (frm = id)) as [<- | Hid1].
  - rewrite lookup_insert_eq, Hfrm. do 2 f_equal. lia.
  - rewrite lookup_insert_ne by exact Hid1.
    destruct (decide (to = id)) as [<- | Hid2].
    + rewrite lookup_insert_eq, Hto. do 2 f_equal. lia.
    + rewrite lookup_insert_ne by exact Hid2.
      subst conn1. cbn [execute rows].
      unfold update_balance_add, update_balance_sub.
      rewrite !lookup_alter_ne by congruence. reflexivity.
Qed.

End Ledger_more.

(** ** [run_transaction]: all the ways it can end *)

Section Executor_more.

Context {server : Type}.
Variable random_random : Z -> float.
Variable commit_error : session server -> option exception.
Variable op : session server -> completion * session server.

Implicit Types (conn : connection server) (s : session server).

Local Abbreviation run_transaction :=
  (run_transaction random_random commit_error op).

(** With [max_retries >= 1], [run_transaction] invokes the operation exactly
    once, whatever it does, never sleeps, and ends in the one of five ways
    that this invocation and the COMMIT decide: the invocation returns and
    the COMMIT passes, its rows are committed; the COMMIT raises, that is
    raised; the invocation conflicts, the error of [conn.rollback()] is
    raised; it raises [psycopg.Rollback], [run_transaction] returns; it
    raises anything else, that is raised.  In all ways but the first the
    committed rows are those from before the call. *)
Theorem run_transaction_ends conn (max_retries : Z) :
  1 <= max_retries ->
  run_transaction conn max_retries =
    let s1 := snd (op (transaction_enter conn)) in
    let rolled_back := {| committed := committed conn; store := env s1 |} in
    match fst (op (transaction_enter conn)) with
    | Returned =>
        match commit_error s1 with
        | None =>
            {| outcome := Returned;
               conn_after := {| committed := rows s1; store := env s1 |};
               trace := [Begin; Call 1; Commit] |}
        | Some e =>
            {| outcome := Raised e;
               conn_after := rolled_back;
               trace := [Begin; Call 1; Abort] |}
        end
    | Raised e =>
        if is_SerializationFailure e then
          {| outcome := Raised rollback_forbidden;
             conn_after := rolled_back;
             trace := [Begin; Call 1; Rollback; Abort] |}
        else if is_Rollback e then
          {| outcome := Returned;
             conn_after := rolled_back;
             trace := [Begin; Call 1; Abort] |}
        else
          {| outcome := Raised e;
             conn_after := rolled_back;
             trace := [Begin; Call 1; Abort] |}
    end.
Proof.
  intros Hmax. unfold_run_transaction.
  rewrite (for_retry_first _ _ _ _ _ Hmax).
  destruct (op (transaction_enter conn)) as [[| e] s1]; cbn [fst snd].
  - destruct (commit_error s1); reflexivity.
  - destruct (is_SerializationFailure e); [reflexivity |].
    destruct (is_Rollback e); reflexivity.
Qed.

(** The operation is never invoked more than [max_retries] times, and not at
    all when [max_retries] is not positive, whatever it does. *)
Theorem run_transaction_invocations_bound conn (max_retries : Z) :
  Z.of_nat (invocations (trace (run_transaction conn max_retries)))
    <= Z.max 0 max_retries.
Proof.
  unfold_run_transaction.
  destruct (Z_le_gt_dec max_retries 0) as [Hle | Hgt].
  - rewrite range_nil by lia. cbn. lia.
  - rewrite for_retry_first by lia.
    destruct (op (transaction_enter conn)) as [[| e] s1].
    + destruct (commit_error s1); cbn; lia.
    + destruct (is_SerializationFailure e); cbn; lia.
Qed.

(** [run_transaction] returns in two cases only, both after a single
    invocation of the operation: the invocation returned and the COMMIT
    passed, and the rows it left are the committed ones; or it raised
    [psycopg.Rollback], and the committed rows are those from before. *)
Theorem run_transaction_Returned_inv conn (max_retries : Z) :
  outcome (run_transaction conn max_retries) = Returned ->
  1 <= max_retries /\
  ((fst (op (transaction_enter conn)) = Returned /\
    commit_error (snd (op (transaction_enter conn))) = None /\
    conn_after (run_transaction conn max_retries) =
      {| committed := rows (snd (op (transaction_enter conn)));
         store := env (snd (op (transaction_enter conn))) |} /\
    trace (run_transaction conn max_retries) = [Begin; Call 1; Commit]) \/
   (fst (op (transaction_enter conn)) = Raised psycopg_Rollback /\
    conn_after (run_transaction conn max_retries) =
      {| committed := committed conn;
         store := env (snd (op (transaction_enter conn))) |} /\
    trace (run_transaction conn max_retries) = [Begin; Call 1; Abort])).
Proof.
  unfold_run_transaction.
  destruct (Z_le_gt_dec max_retries 0) as [Hle | Hgt].
  - rewrite range_nil by lia. cbn. discriminate.
  - rewrite for_retry_first by lia. intros Hret. split; [lia |]. revert Hret.
    destruct (op (transaction_enter conn)) as [[| e] s1]; cbn [fst snd].
    + destruct (commit_error s1); cbn [outcome conn_after trace app];
        [discriminate |].
      intros _. left. auto.
    + destruct (is_SerializationFailure e) eqn:Hclass;
        cbn [outcome conn_after trace app is_Rollback rollback_forbidden];
        [discriminate |].
      destruct e; cbn [is_Rollback]; try discriminate.
      intros _. right. auto.
Qed.

End Executor_more.

(** ** [run_transaction] of a transfer *)

Section Transfer_in_transaction.

Context {server : Type}.
Variable random_random : Z -> float.
Variable commit_error : session server -> option exception.

Implicit Types (conn : connection server).

(** Leaving the block by the rollback, from the session it was entered
    with, gives back the connection. *)
Lemma transaction_rollback_enter conn :
  transaction_rollback (committed conn) (transaction_enter conn) = conn.
Proof. destruct conn. reflexivity. Qed.

(** The first iteration of the loop when the operation is a transfer that
    the store lets through. *)
Lemma for_retry_transfer_funds conn (frm to : N) (a max_retries : Z) :
  1 <= max_retries ->
  for_retry random_random (fun c => transfer_funds c frm to a) max_retries
      (committed conn) (range 1 (max_retries + 1)) (transaction_enter conn) =
    (fst (transfer_funds (transaction_enter conn) frm to a),
     snd (transfer_funds (transaction_enter conn) frm to a),
     [Call 1]).
Proof.
  intros Hmax. rewrite for_retry_first by exact Hmax.
  destruct (transfer_funds (transaction_enter conn) frm to a) as [[| e] s] eqn:Hrun;
    [reflexivity |].
  destruct (transfer_funds_Raised_class _ _ _ _ _ _ Hrun) as (_ & -> & _).
  reflexivity.
Qed.

(** Insufficient funds are not retried: when the source holds less than the
    amount, [run_transaction] raises the [RuntimeError] of the transfer after a
    single invocation, for every [max_retries >= 1], and the connection is the
    one from before the call, so that calling again ends in the same way. *)
Theorem run_transaction_insufficient_funds conn (frm to : N) (a b max_retries : Z) :
  1 <= max_retries ->
  committed conn !! frm = Some (Some b) ->
  b < a ->
  run_transaction random_random commit_error (fun c => transfer_funds c frm to a)
      conn max_retries =
    {| outcome := Raised (RuntimeError frm b a);
       conn_after := conn;
       trace := [Begin; Call 1; Abort] |}.
Proof.
  intros Hmax Hfrm Hlt. unfold_run_transaction.
  rewrite (for_retry_transfer_funds conn frm to a max_retries Hmax).
  assert (Hrun : transfer_funds (transaction_enter conn) frm to a =
                 (Raised (RuntimeError frm b a), transaction_enter conn)).
  { unfold transfer_funds, select_balance. cbn [transaction_enter rows].
    rewrite Hfrm. destruct (Z.ltb_spec b a) as [_ | Hge]; [reflexivity | lia]. }
  rewrite Hrun. cbn [fst snd app is_Rollback].
  rewrite transaction_rollback_enter. reflexivity.
Qed.

End Transfer_in_transaction.

(** ** The accounts of the workload: creation, printing, deletion *)

(** The sum of all balances after a row is written, whether or not there was
    a row with that id. *)
Lemma total_insert_balance (t : accounts) (id : N) (b' : option Z) :
  total (<[id := b']> t) = total t - balance id t + balance_value b'.
Proof.
  unfold balance. destruct (t !! id) as [b |] eqn:Hid.
  - rewrite (total_insert t id b b' Hid). reflexivity.
  - unfold total. rewrite map_fold_insert_L; [cbn; lia | intros; lia | exact Hid].
Qed.

Lemma balance_insert_ne (t : accounts) (id id' : N) (b : option Z) :
  id <> id' -> balance id' (<[id := b]> t) = balance id' t.
Proof. intros Hne. unfold balance. rewrite lookup_insert_ne by exact Hne. reflexivity. Qed.

Lemma print_rows_Returned (cur : list (N * option Z)) :
  Forall (fun r => snd r <> None) cur ->
  exists out,
    print_rows cur = (Returned, out) /\
    length out = length cur /\
    forall id b, Account id b ∈ out <-> (id, Some b) ∈ cur.
Proof.
  induction cur as [| [id [b |]] cur IH]; intros Hall.
  - exists []. split; [reflexivity | split; [reflexivity |]].
    intros id b. split; intros H; inversion H.
  - apply Forall_cons in Hall as [_ Hall].
    destruct (IH Hall) as (out & Hrun & Hlen & Hin).
    exists (Account id b :: out). cbn [print_rows]. rewrite Hrun.
    split; [reflexivity | split; [cbn; lia |]].
    intros id' b'. rewrite !elem_of_cons, Hin.
    split; (intros [Heq | Hrest]; [left; congruence | right; exact Hrest]).
  - apply Forall_cons in Hall as [Hnone _]. cbn in Hnone. congruence.
Qed.

Lemma print_rows_Raised (cur : list (N * option Z)) :
  Exists (fun r => snd r = None) cur ->
  exists msg out, print_rows cur = (Raised (TypeError msg), out).
Proof.
  induction cur as [| [id [b |]] cur IH]; intros Hex.
  - inversion Hex.
  - apply Exists_cons in Hex as [Hhead | Hex]; [discriminate |].
    destruct (IH Hex) as (msg & out & Hrun).
    exists msg, (Account id b :: out). cbn [print_rows]. rewrite Hrun. reflexivity.
  - eexists _, _. reflexivity.
Qed.

Section Accounts.

Context {server : Type}.
Implicit Types (conn : connection server).

(** [create_accounts] returns the two ids in the order in which they were
    drawn and, when they differ, leaves 1000 on the first and 250 on the
    second, whatever rows had these ids before; no other row is touched. *)
Theorem create_accounts_rows conn (id1 id2 : N) :
  id1 <> id2 ->
  fst (create_accounts id1 id2 conn) = [id1; id2] /\
  committed (snd (create_accounts id1 id2 conn)) !! id1 = Some (Some 1000) /\
  committed (snd (create_accounts id1 id2 conn)) !! id2 = Some (Some 250) /\
  (forall id, id <> id1 -> id <> id2 ->
     committed (snd (create_accounts id1 id2 conn)) !! id = committed conn !! id) /\
  store (snd (create_accounts id1 id2 conn)) = store conn.
Proof.
  intros Hne. cbn. unfold upsert_accounts.
  split; [reflexivity | split; [| split; [| split; [| reflexivity]]]].
  - rewrite lookup_insert_ne by congruence. apply lookup_insert_eq.
  - apply lookup_insert_eq.
  - intros id H1 H2. rewrite !lookup_insert_ne by congruence. reflexivity.
Qed.

(** [create_accounts] with two distinct ids brings the sum of all balances to
    what it was, less what the rows with these ids held, plus 1250. *)
Theorem create_accounts_total conn (id1 id2 : N) :
  id1 <> id2 ->
  total (committed (snd (create_accounts id1 id2 conn))) =
    total (committed conn)
      - balance id1 (committed conn) - balance id2 (committed conn) + 1250.
Proof.
  intros Hne. cbn. unfold upsert_accounts.
  rewrite !total_insert_balance, balance_insert_ne by exact Hne.
  cbn. lia.
Qed.

(** [print_balances] returns exactly when no row of the table has a NULL
    balance; otherwise it raises a [TypeError]. *)
Theorem print_balances_Returned_iff conn :
  fst (print_balances conn) = Returned <->
  forall id, committed conn !! id <> Some None.
Proof.
  unfold print_balances. split.
  - intros Hret id Hid.
    destruct (print_rows_Raised (map_to_list (committed conn)))
      as (msg & out & Hrun).
    + apply Exists_exists. exists (id, None).
      split; [apply elem_of_map_to_list; exact Hid | reflexivity].
    + rewrite Hrun in Hret. discriminate.
  - intros Hall.
    destruct (print_rows_Returned (map_to_list (committed conn)))
      as (out & Hrun & _).
    + apply Forall_forall. intros [id b] Hin Hnone. cbn in Hnone. subst b.
      apply elem_of_map_to_list in Hin. exact (Hall id Hin).
    + rewrite Hrun. reflexivity.
Qed.

(** On a table without NULL balance, [print_balances] prints the heading and
    then one line for each row and no other: as many lines as there are rows,
    and the line of an id shows the balance of its row. *)
Theorem print_balances_lines conn :
  (forall id, committed conn !! id <> Some None) ->
  exists out,
    print_balances conn = (Returned, Balances_at :: out) /\
    length out = size (committed conn) /\
    forall id b, Account id b ∈ out <-> committed conn !! id = Some (Some b).
Proof.
  intros Hall. unfold print_balances.
  destruct (print_rows_Returned (map_to_list (committed conn)))
    as (out & Hrun & Hlen & Hin).
  - apply Forall_forall. intros [id b] Hin Hnone. cbn in Hnone. subst b.
    apply elem_of_map_to_list in Hin. exact (Hall id Hin).
  - exists out. rewrite Hrun.
    split; [reflexivity | split; [rewrite Hlen; apply length_map_to_list |]].
    intros id b. rewrite Hin. apply elem_of_map_to_list.
Qed.

(** [delete_accounts] removes every row, those of [create_accounts] and any
    other: afterwards no id has a row, the sum of the balances is 0,
    [print_balances] prints the heading alone, and a transfer from any
    account raises a [TypeError]. *)
Theorem delete_accounts_empties conn :
  (forall id, committed (delete_accounts conn) !! id = None) /\
  total (committed (delete_accounts conn)) = 0 /\
  print_balances (delete_accounts conn) = (Returned, [Balances_at]) /\
  store (delete_accounts conn) = store conn /\
  forall frm to a, exists msg,
    transfer_funds (transaction_enter (delete_accounts conn)) frm to a =
      (Raised (TypeError msg), transaction_enter (delete_accounts conn)).
Proof.
  split; [| split; [| split; [| split]]].
  - intros id. apply lookup_empty.
  - reflexivity.
  - unfold print_balances. cbn [delete_accounts execute_statement committed].
    unfold delete_from_accounts. rewrite map_to_list_empty. reflexivity.
  - reflexivity.
  - intros frm to a. eexists. unfold transfer_funds, select_balance.
    cbn [transaction_enter delete_accounts execute_statement committed rows].
    unfold delete_from_accounts. rewrite lookup_empty. reflexivity.
Qed.

End Accounts.

(** ** [execute_workload] *)

Lemma print_rows_table (t : accounts) :
  (forall id, t !! id <> Some None) ->
  exists out,
    print_rows (map_to_list t) = (Returned, out) /\
    forall id b, Account id b ∈ out <-> t !! id = Some (Some b).
Proof.
  intros Hall.
  destruct (print_rows_Returned (map_to_list t)) as (out & Hrun & _ & Hin).
  - apply Forall_forall. intros [id b] Hin Hnone. cbn in Hnone. subst b.
    apply elem_of_map_to_list in Hin. exact (Hall id Hin).
  - exists out. split; [exact Hrun |].
    intros id b. rewrite Hin. apply elem_of_map_to_list.
Qed.

(** The rows after the transfer of the workload, seen from the rows from
    before [create_accounts]. *)
Lemma workload_rows (t : accounts) (id1 id2 : N) :
  id1 <> id2 ->
  update_balance_add 100 id2 (update_balance_sub 100 id1 (upsert_accounts id1 id2 t)) =
    <[id2 := Some 350]> (<[id1 := Some 900]> t).
Proof.
  intros Hne. apply map_eq. intros id.
  unfold update_balance_add, update_balance_sub, upsert_accounts.
  destruct (decide (id2 = id)) as [<- | H2].
  - rewrite lookup_alter_eq, lookup_alter_ne, !lookup_insert_eq by exact Hne.
    reflexivity.
  - rewrite lookup_alter_ne, (lookup_insert_ne _ id2) by exact H2.
    destruct (decide (id1 = id)) as [<- | H1].
    + rewrite lookup_alter_eq, lookup_insert_ne, !lookup_insert_eq by congruence.
      reflexivity.
    + rewrite lookup_alter_ne, !lookup_insert_ne by congruence. reflexivity.
Qed.

(** Two rows written with balances that are not NULL, on a table whose other
    rows have none, leave no NULL balance. *)
Lemma no_null_insert2 (t : accounts) (id1 id2 : N) (b1 b2 : Z) :
  (forall id, id <> id1 -> id <> id2 -> t !! id <> Some None) ->
  forall id, <[id2 := Some b2]> (<[id1 := Some b1]> t) !! id <> Some None.
Proof.
  intros Hnull id.
  destruct (decide (id2 = id)) as [<- | H2]; [rewrite lookup_insert_eq; discriminate |].
  rewrite lookup_insert_ne by exact H2.
  destruct (decide (id1 = id)) as [<- | H1]; [rewrite lookup_insert_eq; discriminate |].
  rewrite lookup_insert_ne by exact H1. apply Hnull; congruence.
Qed.

Section Execute_workload.

Context {server : Type}.
Variable random_random : Z -> float.

Implicit Types (conn : connection server).

(** With two distinct ids and a table whose other rows have no NULL balance,
    [execute_workload] returns: the transfer goes from the account created
    first, with 1000, to the one created second, with 250, and is committed at
    the first attempt.  The first printing shows 1000 and 250, the second 900
    and 350, each beside the rows that were there before, and at the end the
    table has no row left, those that were there before included. *)
Theorem execute_workload_returns conn (id1 id2 : N) :
  id1 <> id2 ->
  (forall id, id <> id1 -> id <> id2 -> committed conn !! id <> Some None) ->
  exists out1 out2,
    execute_workload random_random id1 id2 conn =
      (Returned, {| committed := ∅; store := store conn |},
       (Balances_at :: out1) ++ Balances_at :: out2) /\
    (forall id b, Account id b ∈ out1 <->
       <[id2 := Some 250]> (<[id1 := Some 1000]> (committed conn)) !! id
         = Some (Some b)) /\
    (forall id b, Account id b ∈ out2 <->
       <[id2 := Some 350]> (<[id1 := Some 900]> (committed conn)) !! id
         = Some (Some b)).
Proof.
  intros Hne Hnull.
  destruct (print_rows_table (<[id2 := Some 250]> (<[id1 := Some 1000]> (committed conn))))
    as (out1 & Hp1 & Hin1); [apply no_null_insert2; exact Hnull |].
  destruct (print_rows_table (<[id2 := Some 350]> (<[id1 := Some 900]> (committed conn))))
    as (out2 & Hp2 & Hin2); [apply no_null_insert2; exact Hnull |].
  exists out1, out2. split; [| split; [exact Hin1 | exact Hin2]].
  unfold execute_workload. cbn [create_accounts].
  set (conn1 := execute_statement (upsert_accounts id1 id2) conn).
  assert (Hprint1 : print_balances conn1 = (Returned, Balances_at :: out1)).
  { unfold print_balances, conn1. cbn [execute_statement committed].
    unfold upsert_accounts. rewrite Hp1. reflexivity. }
  rewrite Hprint1. cbn [pop rev app].
  unfold_run_transaction.
  rewrite (for_retry_transfer_funds random_random conn1 id1 id2 100 3) by lia.
  rewrite (transfer_funds_passes (transaction_enter conn1) id1 id2 100 1000);
    [| cbn; unfold upsert_accounts; rewrite lookup_insert_ne by congruence;
       apply lookup_insert_eq
     | lia].
  cbn [fst snd commits outcome conn_after].
  set (conn2 := transaction_commit _).
  assert (Hprint2 : print_balances conn2 = (Returned, Balances_at :: out2)).
  { unfold print_balances, conn2, conn1.
    cbn [transaction_commit transaction_enter execute execute_statement
         committed rows].
    rewrite (workload_rows _ _ _ Hne), Hp2. reflexivity. }
  rewrite Hprint2. reflexivity.
Qed.


End Execute_workload.

(** ** [parse_cmdline] *)








(** ** The scenarios, continued *)

Lemma demo_rows_lookup (id : N) :
  demo_rows !! id =
    if decide (id = 1%N) then Some (Some 1000)
    else if decide (id = 2%N) then Some (Some 250) else None.
Proof.
  unfold demo_rows.
  destruct (decide (id = 1%N)) as [-> | H1]; [apply lookup_insert_eq |].
  rewrite lookup_insert_ne by congruence.
  destruct (decide (id = 2%N)) as [-> | H2]; [apply lookup_insert_eq |].
  rewrite lookup_insert_ne by congruence. apply lookup_empty.
Qed.

Lemma demo_rows_no_null (id : N) : demo_rows !! id <> Some None.
Proof. rewrite demo_rows_lookup. repeat case_decide; discriminate. Qed.

Lemma demo_rows_nonnegative (id : N) (b : Z) :
  demo_rows !! id = Some (Some b) -> 0 <= b.
Proof.
  rewrite demo_rows_lookup.
  repeat case_decide; intros [= <-] || discriminate; lia.
Qed.

Lemma transfer_funds_no_source_balance_witness :
  exists msg,
    transfer_funds demo_session 3 1 100 = (Raised (TypeError msg), demo_session).
Proof.
  apply (transfer_funds_no_source_balance demo_session 3 1 100).
  left. reflexivity.
Defined.

Lemma transfer_funds_keeps_nonnegative_witness :
  rows (snd (transfer_funds demo_session 1 2 100)) !! 1%N = Some (Some 900) /\
  0 <= 900.
Proof.
  split; [reflexivity |].
  apply (transfer_funds_keeps_nonnegative demo_session 1 2 100
           ltac:(lia) demo_rows_nonnegative 1%N 900).
  reflexivity.
Defined.

Lemma transfer_funds_back_and_forth_witness :
  exists conn1,
    transfer_funds demo_session 1 2 100 = (Returned, conn1) /\
    transfer_funds conn1 2 1 100 = (Returned, demo_session).
Proof.
  apply (transfer_funds_back_and_forth demo_session 1 2 100 1000 250);
    [discriminate | reflexivity | reflexivity | lia | lia].
Defined.

Lemma run_transaction_ends_witness :
  run_transaction no_jitter commits abandoned_transfer (demo_connection 0) 3 =
    {| outcome := Returned;
       conn_after := demo_connection 0;
       trace := [Begin; Call 1; Abort] |}.
Proof.
  exact (run_transaction_ends no_jitter commits abandoned_transfer
           (demo_connection 0) 3 ltac:(lia)).
Defined.

Lemma run_transaction_Returned_inv_witness :
  conn_after (run_transaction no_jitter commits contended_transfer (demo_connection 0) 3)
    = {| committed := update_balance_add 100 2 (update_balance_sub 100 1 demo_rows);
         store := O |}.
Proof.
  destruct (run_transaction_Returned_inv no_jitter commits contended_transfer
              (demo_connection 0) 3) as (_ & [(_ & _ & Hconn & _) | (Habs & _)]);
    [reflexivity | exact Hconn | discriminate Habs].
Defined.

Lemma run_transaction_insufficient_funds_witness :
  run_transaction no_jitter commits
      (fun c : session nat => transfer_funds c 2 1 2000) (demo_connection 0) 3 =
    {| outcome := Raised (RuntimeError 2 250 2000);
       conn_after := demo_connection 0;
       trace := [Begin; Call 1; Abort] |}.
Proof.
  apply (run_transaction_insufficient_funds no_jitter commits (demo_connection 0)
           2 1 2000 250 3);
    [lia | reflexivity | lia].
Defined.

Lemma create_accounts_rows_witness :
  committed (snd (create_accounts 1 7 (demo_connection 0))) !! 1%N = Some (Some 1000) /\
  committed (snd (create_accounts 1 7 (demo_connection 0))) !! 7%N = Some (Some 250) /\
  committed (snd (create_accounts 1 7 (demo_connection 0))) !! 2%N = Some (Some 250).
Proof.
  destruct (create_accounts_rows (demo_connection 0) 1 7) as (_ & H1 & H7 & Hrest & _);
    [discriminate |].
  split; [exact H1 | split; [exact H7 |]].
  rewrite Hrest by discriminate. reflexivity.
Defined.

Lemma create_accounts_total_witness :
  total (committed (snd (create_accounts 1 7 (demo_connection 0)))) =
    total demo_rows - balance 1 demo_rows - balance 7 demo_rows + 1250.
Proof.
  apply (create_accounts_total (demo_connection 0) 1 7). discriminate.
Defined.

Lemma print_balances_lines_witness :
  exists out,
    print_balances (demo_connection 0) = (Returned, Balances_at :: out) /\
    length out = 2%nat.
Proof.
  destruct (print_balances_lines (demo_connection 0)) as (out & Hrun & Hlen & _);
    [exact demo_rows_no_null |].
  exists out. split; [exact Hrun | exact Hlen].
Defined.

Lemma execute_workload_returns_witness :
  exists out,
    execute_workload no_jitter 7 8 (demo_connection 0) =
      (Returned, {| committed := ∅; store := O |}, out).
Proof.
  destruct (execute_workload_returns no_jitter (demo_connection 0) 7 8)
    as (out1 & out2 & Hrun & _);
    [discriminate | intros id _ _; apply demo_rows_no_null |].
  eexists. exact Hrun.
Defined.


Local Open Scope string_scope.

